(** * Python/pycore_backoff.c: the backoff tunables of the adaptive interpreter

    The translation unit consists of four [#include] lines followed by seven
    file-scope object definitions of type [int].  Six of them are initialised
    from configuration macros that live in the included headers, one from an
    integer literal.

    The development has three layers:
    - the shape of a C translation unit (top-level items, storage classes,
      qualifiers, initialiser expressions);
    - the translation unit itself, [pycore_backoff_c], transcribed line by
      line from the source;
    - what C does with such a unit: linkage, static initialisation of the
      object store, and assignment through a modifiable lvalue.

    The macros come from headers that are not part of this file, so their
    values are a parameter ([macros]) of everything that evaluates an
    initialiser. *)

From stdpp Require Import gmap strings list fin_maps.
From Stdlib Require Import ZArith Ascii String.

Local Open Scope string_scope.
Local Open Scope Z_scope.

(** ** The shape of a translation unit *)

Inductive storage_class : Type :=
  | SC_none      (* no storage-class specifier *)
  | SC_static
  | SC_extern.

Inductive ctype : Type :=
  | Tvoid
  | Tchar
  | Tint
  | Tlong
  | Tdouble
  | Tpointer (pointee : ctype)
  | Tnamed (tag : string).     (* struct/union/enum tag or typedef name *)

(** Expressions that can stand to the right of [=] in a definition. *)
Inductive expr : Type :=
  | IntLit (z : Z)             (* an integer literal, e.g. [333] *)
  | Macro (m : string)         (* an object-like macro from a header *)
  | Var (x : string).          (* a read of another object *)

Record object_definition : Type := ObjectDefinition {
  od_storage : storage_class;
  od_const : bool;             (* is the type [const]-qualified? *)
  od_type : ctype;
  od_name : string;
  od_init : option expr
}.

Inductive statement : Type :=
  | Assign (x : string) (e : expr)
  | Return (e : option expr).

Inductive type_kind : Type := KStruct | KUnion | KEnum | KTypedef.

Inductive top_level : Type :=
  | Include (header : string)
  | ObjectDef (d : object_definition)
  | FunctionDef (sc : storage_class) (ret : ctype) (name : string)
                (body : list statement)
  | TypeDef (k : type_kind) (name : string).

Definition translation_unit : Type := list top_level.

#[global] Instance storage_class_eq_dec : EqDecision storage_class.
Proof. solve_decision. Defined.
#[global] Instance ctype_eq_dec : EqDecision ctype.
Proof. solve_decision. Defined.
#[global] Instance expr_eq_dec : EqDecision expr.
Proof. solve_decision. Defined.
#[global] Instance object_definition_eq_dec : EqDecision object_definition.
Proof. solve_decision. Defined.

(** ** The source file *)

(** [int NAME = INIT;] at file scope: no storage class, no qualifier. *)
Definition int_global_object (name : string) (init : expr)
  : object_definition :=
  {| od_storage := SC_none; od_const := false; od_type := Tint;
     od_name := name; od_init := Some init |}.

Definition int_global (name : string) (init : expr) : top_level :=
  ObjectDef (int_global_object name init).

Definition pycore_backoff_c : translation_unit :=
  [ Include "Python.h";
    Include "pycore_backoff.h";
    Include "pycore_optimizer.h";
    Include "pycore_code.h";
    int_global "_Py_JumpBackwardInitialValue" (Macro "JUMP_BACKWARD_INITIAL_VALUE");
    int_global "_Py_JumpBackwardInitialBackoff" (Macro "JUMP_BACKWARD_INITIAL_BACKOFF");
    int_global "_Py_SideExitInitialValue" (Macro "SIDE_EXIT_INITIAL_VALUE");
    int_global "_Py_SideExitInitialBackoff" (Macro "SIDE_EXIT_INITIAL_BACKOFF");
    int_global "_Py_AdaptiveCoolDownValue" (Macro "ADAPTIVE_COOLDOWN_VALUE");
    int_global "_Py_MaxChainDepth" (Macro "MAX_CHAIN_DEPTH");
    int_global "_Py_ConfidenceLowerLimit" (IntLit 333) ].

(** ** Reading a translation unit *)

Definition is_include (t : top_level) : bool :=
  match t with Include _ => true | _ => false end.

(** What the file itself defines: every top-level item that is not a
    preprocessor inclusion. *)
Definition definitions (tu : translation_unit) : list top_level :=
  List.filter (fun t => negb (is_include t)) tu.

Definition objects (tu : translation_unit) : list object_definition :=
  omap (fun t => match t with ObjectDef d => Some d | _ => None end) tu.

Definition functions (tu : translation_unit) : list string :=
  omap (fun t => match t with FunctionDef _ _ f _ => Some f | _ => None end) tu.

Definition type_definitions (tu : translation_unit) : list string :=
  omap (fun t => match t with TypeDef _ n => Some n | _ => None end) tu.

(** Statements the unit can execute: the bodies of its functions. *)
Definition statements (tu : translation_unit) : list statement :=
  mbind (fun t => match t with FunctionDef _ _ _ b => b | _ => [] end) tu.

Definition lookup_object (tu : translation_unit) (x : string)
  : option object_definition :=
  List.find (fun d => bool_decide (od_name d = x)) (objects tu).

Definition defined_names (tu : translation_unit) : list string :=
  od_name <$> objects tu.

Definition is_int_object (d : object_definition) : bool :=
  bool_decide (od_type d = Tint).

(** The integer globals of a unit, each name once. *)
Definition int_globals (tu : translation_unit) : list string :=
  remove_dups (od_name <$> List.filter is_int_object (objects tu)).

(** A plain initialised integer global: type [int] with an initialiser. *)
Definition plain_int_global (t : top_level) : Prop :=
  ∃ d, t = ObjectDef d ∧ od_type d = Tint ∧ is_Some (od_init d).

(** ** Linkage (C11 6.2.2) *)

Inductive linkage : Type := External | Internal.

(** A file-scope object declared [static] has internal linkage; declared
    [extern] or without a storage class it has external linkage. *)
Definition linkage_of (d : object_definition) : linkage :=
  match od_storage d with
  | SC_static => Internal
  | SC_none | SC_extern => External
  end.

(** What another translation unit finds when it declares [extern int x;]
    and the linker resolves the name against this unit. *)
Definition resolve_extern (tu : translation_unit) (x : string)
  : option object_definition :=
  match lookup_object tu x with
  | Some d => match linkage_of d with External => Some d | Internal => None end
  | None => None
  end.

(** ** Values of type [int] *)

Definition INT_MIN : Z := - 2 ^ 31.
Definition INT_MAX : Z := 2 ^ 31 - 1.

Definition int_representable (z : Z) : Prop := INT_MIN ≤ z ≤ INT_MAX.

(** Conversion to [int]: the value itself when representable, otherwise
    reduced modulo 2^32 into the signed range. *)
Definition to_int (z : Z) : Z := (z + 2 ^ 31) `mod` 2 ^ 32 - 2 ^ 31.

(** ** Program state *)

(** The objects with static storage duration, by name, next to everything
    else a running program has (heap, stack, files, input ...), which this
    unit does not describe and which is therefore kept abstract. *)
Record program_state (R : Type) : Type := ProgramState {
  globals : gmap string Z;
  rest : R
}.
Arguments ProgramState {R} _ _.
Arguments globals {R} _.
Arguments rest {R} _.

Definition constant_expression (e : expr) : bool :=
  match e with
  | IntLit _ | Macro _ => true
  | Var _ => false
  end.

(** An object whose initialiser is present and a constant expression. *)
Definition constant_init (d : object_definition) : Prop :=
  ∃ e, od_init d = Some e ∧ constant_expression e = true.

Section Semantics.
(** The value each configuration macro expands to. *)
Variable macros : string → Z.

Definition eval (g : gmap string Z) (e : expr) : Z :=
  match e with
  | IntLit z => z
  | Macro m => macros m
  | Var x => g !!! x
  end.

(** The value an object starts with: its initialiser converted to the
    object's type, or zero when there is none (C11 6.7.9p10). *)
Definition initial_value (g : gmap string Z) (d : object_definition) : Z :=
  match od_init d with
  | Some e => to_int (eval g e)
  | None => 0
  end.

Definition init_object (g : gmap string Z) (d : object_definition)
  : gmap string Z :=
  <[od_name d := initial_value g d]> g.

Definition init_globals (tu : translation_unit) (g : gmap string Z)
  : gmap string Z :=
  foldl init_object g (objects tu).

(** Static initialisation of a translation unit, in source order. *)
Definition static_init {R} (tu : translation_unit) (s : program_state R)
  : program_state R :=
  {| globals := init_globals tu (globals s); rest := rest s |}.

(** The simple assignment [x = v;] performed anywhere in the program on an
    object this unit defines.  The left operand must be a modifiable
    lvalue, that is, not [const]-qualified (C11 6.5.16p2, 6.3.2.1p1). *)
Definition assign {R} (tu : translation_unit) (x : string) (v : Z)
    (s : program_state R) : option (program_state R) :=
  match lookup_object tu x with
  | Some d =>
      if od_const d then None
      else Some {| globals := <[x := to_int v]> (globals s); rest := rest s |}
  | None => None
  end.
End Semantics.

(** A concrete macro environment to run the model on: the values upstream
    CPython gives these macros in pycore_backoff.h, pycore_code.h and
    pycore_optimizer.h.  No theorem below depends on these numbers. *)
Definition cpython_macros (m : string) : Z :=
  if bool_decide (m = "JUMP_BACKWARD_INITIAL_VALUE") then 4095
  else if bool_decide (m = "JUMP_BACKWARD_INITIAL_BACKOFF") then 12
  else if bool_decide (m = "SIDE_EXIT_INITIAL_VALUE") then 4095
  else if bool_decide (m = "SIDE_EXIT_INITIAL_BACKOFF") then 12
  else if bool_decide (m = "ADAPTIVE_COOLDOWN_VALUE") then 52
  else if bool_decide (m = "MAX_CHAIN_DEPTH") then 4
  else 0.

(** The macros a unit's initialisers mention, in source order. *)
Definition macros_used (tu : translation_unit) : list string :=
  omap (fun d => match od_init d with Some (Macro m) => Some m | _ => None end)
       (objects tu).

(** ** The naming rule between a global and its macro, as the specification
       words it

    "the global's name with the [_Py_] prefix dropped and camel case replaced
    by upper snake case": every capital after the first letter opens a new
    word, words are joined by [_], and all letters are capitalised. *)

Definition is_upper (a : ascii) : bool :=
  let n := N_of_ascii a in ((65 <=? n) && (n <=? 90))%N.

Definition is_lower (a : ascii) : bool :=
  let n := N_of_ascii a in ((97 <=? n) && (n <=? 122))%N.

Definition to_upper (a : ascii) : ascii :=
  if is_lower a then ascii_of_N (N_of_ascii a - 32) else a.

Fixpoint upper_snake_tail (s : string) : string :=
  match s with
  | EmptyString => EmptyString
  | String a s' =>
      if is_upper a then String "_" (String a (upper_snake_tail s'))
      else String (to_upper a) (upper_snake_tail s')
  end.

Definition camel_to_upper_snake (s : string) : string :=
  match s with
  | EmptyString => EmptyString
  | String a s' => String (to_upper a) (upper_snake_tail s')
  end.

Fixpoint strip_prefix (p s : string) : option string :=
  match p, s with
  | EmptyString, _ => Some s
  | String a p', String b s' =>
      if bool_decide (a = b) then strip_prefix p' s' else None
  | String _ _, EmptyString => None
  end.

Definition spec_macro_name (global : string) : option string :=
  camel_to_upper_snake <$> strip_prefix "_Py_" global.

(** An object follows the rule when a macro initialiser, if it has one, is
    the macro the rule derives from the object's name. *)
Definition follows_naming_rule (d : object_definition) : Prop :=
  match od_init d with
  | Some (Macro m) => spec_macro_name (od_name d) = Some m
  | _ => True
  end.

(** ** The groups of tunables the specification lists *)

Definition initial_backoff_counters : list string :=
  [ "_Py_JumpBackwardInitialValue"; "_Py_JumpBackwardInitialBackoff";
    "_Py_SideExitInitialValue"; "_Py_SideExitInitialBackoff" ].
Definition cooldown_thresholds : list string := [ "_Py_AdaptiveCoolDownValue" ].
Definition confidence_limits : list string := [ "_Py_ConfidenceLowerLimit" ].
Definition max_chain_depths : list string := [ "_Py_MaxChainDepth" ].

(** The global-to-macro pairs the specification lists. *)
Definition macro_derived : list (string * string) :=
  [ ("_Py_JumpBackwardInitialValue", "JUMP_BACKWARD_INITIAL_VALUE");
    ("_Py_JumpBackwardInitialBackoff", "JUMP_BACKWARD_INITIAL_BACKOFF");
    ("_Py_SideExitInitialValue", "SIDE_EXIT_INITIAL_VALUE");
    ("_Py_SideExitInitialBackoff", "SIDE_EXIT_INITIAL_BACKOFF");
    ("_Py_AdaptiveCoolDownValue", "ADAPTIVE_COOLDOWN_VALUE");
    ("_Py_MaxChainDepth", "MAX_CHAIN_DEPTH") ].

(** [x] is defined by [tu] as an object of type [int]. *)
Definition declares_int (tu : translation_unit) (x : string) : Prop :=
  ∃ d, lookup_object tu x = Some d ∧ od_name d = x ∧ od_type d = Tint.

(** [x] is defined by [tu] with the macro [m] as its initialiser. *)
Definition initialised_from (tu : translation_unit) (x m : string) : Prop :=
  ∃ d, lookup_object tu x = Some d ∧ od_init d = Some (Macro m).

(** The reading of "constant" as an invariant of the whole program: whatever
    assignment the program performs after static initialisation, an object
    of the unit still holds the value it was initialised with. *)
Definition never_changes (macros : string → Z) (tu : translation_unit) : Prop :=
  ∀ (s s' : program_state unit) (x : string) (v : Z) (d : object_definition),
    lookup_object tu x = Some d →
    assign tu x v (static_init macros tu s) = Some s' →
    globals s' !! x = Some (initial_value macros (globals s) d).

(** The store a list of definitions describes: each name bound to the value
    of its initialiser, evaluated without reading any object. *)
Definition initial_bindings (macros : string → Z)
    (ds : list object_definition) : list (string * Z) :=
  (fun d => (od_name d, initial_value macros ∅ d)) <$> ds.

Definition initial_store (macros : string → Z) (tu : translation_unit)
  : gmap string Z :=
  list_to_map (initial_bindings macros (objects tu)).

(** ** Sample runs of the model *)

Example run_names :
  defined_names pycore_backoff_c =
  [ "_Py_JumpBackwardInitialValue"; "_Py_JumpBackwardInitialBackoff";
    "_Py_SideExitInitialValue"; "_Py_SideExitInitialBackoff";
    "_Py_AdaptiveCoolDownValue"; "_Py_MaxChainDepth";
    "_Py_ConfidenceLowerLimit" ].
Proof. reflexivity. Qed.

Example run_snake_1 :
  spec_macro_name "_Py_JumpBackwardInitialValue"
  = Some "JUMP_BACKWARD_INITIAL_VALUE".
Proof. reflexivity. Qed.

Example run_snake_2 :
  spec_macro_name "_Py_AdaptiveCoolDownValue" = Some "ADAPTIVE_COOL_DOWN_VALUE".
Proof. reflexivity. Qed.

Example run_to_int : to_int 333 = 333 ∧ to_int (2 ^ 31) = - 2 ^ 31.
Proof. split; reflexivity. Qed.

Example run_init :
  globals (static_init cpython_macros pycore_backoff_c (ProgramState ∅ tt))
    !! "_Py_MaxChainDepth" = Some 4.
Proof. vm_compute. reflexivity. Qed.

(** ** Conversion to [int] *)

Lemma to_int_representable (z : Z) : int_representable z → to_int z = z.
Proof.
  unfold int_representable, INT_MIN, INT_MAX, to_int. intros Hz.
  rewrite Z.mod_small; lia.
Qed.


(** ** Static initialisation of an arbitrary unit *)

Section InitLemmas.
Variable macros : string → Z.

(** A constant expression reads nothing from the store. *)
Lemma eval_constant (g g' : gmap string Z) (e : expr) :
  constant_expression e = true → eval macros g e = eval macros g' e.
Proof. destruct e; simpl; [reflexivity | reflexivity | discriminate]. Qed.

Lemma initial_value_constant (g g' : gmap string Z) (d : object_definition) :
  constant_init d → initial_value macros g d = initial_value macros g' d.
Proof.
  intros (e & He & Hc). unfold initial_value. rewrite He.
  f_equal. by apply eval_constant.
Qed.

(** Names the unit does not define keep their value. *)
Lemma init_objects_other (ds : list object_definition) (g : gmap string Z)
    (x : string) :
  x ∉ od_name <$> ds → foldl (init_object macros) g ds !! x = g !! x.
Proof.
  revert g. induction ds as [|d ds IH]; intros g Hx; simpl; [reflexivity|].
  rewrite fmap_cons in Hx. apply not_elem_of_cons in Hx as [Hne Hx].
  rewrite IH by assumption. unfold init_object.
  by rewrite lookup_insert_ne.
Qed.

(** With constant initialisers and no name defined twice, every object ends
    up holding its own initial value, whatever the store held before. *)
Lemma init_objects_defined (ds : list object_definition) (g : gmap string Z)
    (d : object_definition) :
  NoDup (od_name <$> ds) → Forall constant_init ds → d ∈ ds →
  foldl (init_object macros) g ds !! od_name d
  = Some (initial_value macros g d).
Proof.
  revert g. induction ds as [|d0 ds IH]; intros g Hnd Hc Hin.
  - by apply elem_of_nil in Hin.
  - rewrite fmap_cons in Hnd. apply NoDup_cons in Hnd as [Hfresh Hnd].
    apply Forall_cons in Hc as [Hc0 Hc]. simpl.
    apply elem_of_cons in Hin as [-> | Hin].
    + rewrite init_objects_other by assumption.
      unfold init_object. by rewrite lookup_insert_eq.
    + rewrite IH by assumption. f_equal.
      apply Forall_forall with (x := d) in Hc; [|assumption].
      by apply initial_value_constant.
Qed.
End InitLemmas.

(** ** Facts about the source file used by several results *)

Lemma pycore_backoff_names_nodup : NoDup (od_name <$> objects pycore_backoff_c).
Proof. apply (bool_decide_unpack _). vm_compute. exact I. Qed.

Lemma pycore_backoff_constant_inits :
  Forall constant_init (objects pycore_backoff_c).
Proof.
  repeat constructor; eexists; (split; [reflexivity | reflexivity]).
Qed.

Lemma pycore_backoff_initialised (macros : string → Z) (R : Type)
    (s : program_state R) (d : object_definition) :
  d ∈ objects pycore_backoff_c →
  globals (static_init macros pycore_backoff_c s) !! od_name d
  = Some (initial_value macros (globals s) d).
Proof.
  intros Hd.
  change (globals (static_init macros pycore_backoff_c s))
    with (foldl (init_object macros) (globals s) (objects pycore_backoff_c)).
  apply init_objects_defined;
    [exact pycore_backoff_names_nodup
    | exact pycore_backoff_constant_inits | exact Hd].
Qed.

(** ** The contents of the file *)

(** C1: the file contains no algorithm, protocol, state machine or
    concurrency logic.  Every definition it makes is a plain initialised
    integer global; it defines no function, no data structure (struct,
    union, enum or typedef) and has no statement that could change state. *)
Theorem pycore_backoff_only_int_globals :
  Forall plain_int_global (definitions pycore_backoff_c)
  ∧ functions pycore_backoff_c = []
  ∧ type_definitions pycore_backoff_c = []
  ∧ statements pycore_backoff_c = [].
Proof.
  split; [|by repeat split].
  unfold definitions, pycore_backoff_c; simpl.
  repeat apply Forall_cons_2; try apply Forall_nil_2;
    (eexists; split; [reflexivity | split; [reflexivity | by eexists]]).
Qed.

(** C2: the file declares global integer tunables of each of the four kinds:
    initial backoff counters, a cooldown threshold, a confidence limit and a
    maximal trace-chain depth.  Each of the seven names is defined with C
    type [int], and the four groups together are all the file defines. *)
Theorem pycore_backoff_tunable_kinds :
  Forall (declares_int pycore_backoff_c) initial_backoff_counters
  ∧ Forall (declares_int pycore_backoff_c) cooldown_thresholds
  ∧ Forall (declares_int pycore_backoff_c) confidence_limits
  ∧ Forall (declares_int pycore_backoff_c) max_chain_depths
  ∧ Forall (fun d => od_type d = Tint) (objects pycore_backoff_c)
  ∧ defined_names pycore_backoff_c
    ≡ₚ initial_backoff_counters ++ cooldown_thresholds
       ++ confidence_limits ++ max_chain_depths.
Proof.
  repeat split;
    try (repeat apply Forall_cons_2; try apply Forall_nil_2;
         first [ reflexivity
               | eexists; split; [reflexivity | split; reflexivity] ]).
  unfold defined_names, initial_backoff_counters, cooldown_thresholds,
    confidence_limits, max_chain_depths; simpl.
  do 5 apply Permutation_skip. apply Permutation_swap.
Qed.

(** C3, as the specification words it, fails: the number of distinct integer
    globals the file defines is not five. *)
Lemma pycore_backoff_not_five_globals :
  List.length (int_globals pycore_backoff_c) ≠ 5%nat.
Proof. vm_compute. discriminate. Qed.

(** C3, amended: the file defines exactly seven integer globals, under seven
    distinct names, and every object it defines is one of them. *)
Theorem pycore_backoff_seven_globals :
  List.length (int_globals pycore_backoff_c) = 7%nat
  ∧ NoDup (defined_names pycore_backoff_c)
  ∧ int_globals pycore_backoff_c = defined_names pycore_backoff_c
  ∧ List.length (objects pycore_backoff_c) = 7%nat.
Proof.
  split; [by vm_compute|]. split; [exact pycore_backoff_names_nodup|].
  split; by vm_compute.
Qed.

(** ** Values after static initialisation *)

Lemma lookup_object_elem (tu : translation_unit) (x : string)
    (d : object_definition) :
  lookup_object tu x = Some d → d ∈ objects tu ∧ od_name d = x.
Proof.
  unfold lookup_object. intros Hf. apply find_some in Hf as [Hin Hname].
  split; [by apply list_elem_of_In | by apply bool_decide_eq_true in Hname].
Qed.

Lemma pycore_backoff_lookup_value (macros : string → Z) (R : Type)
    (s : program_state R) (x : string) (d : object_definition) :
  lookup_object pycore_backoff_c x = Some d →
  globals (static_init macros pycore_backoff_c s) !! x
  = Some (initial_value macros (globals s) d).
Proof.
  intros Hd. apply lookup_object_elem in Hd as [Hin <-].
  by apply pycore_backoff_initialised.
Qed.

Lemma pycore_backoff_not_const :
  Forall (fun d => od_const d = false) (objects pycore_backoff_c).
Proof. repeat constructor. Qed.

(** C4, read as an invariant of the program, fails.  After static
    initialisation [_Py_ConfidenceLowerLimit] holds 333; the assignment
    [_Py_ConfidenceLowerLimit = 0;] is accepted, because the object is not
    [const]-qualified, and afterwards the object holds 0. *)
Lemma pycore_backoff_tunable_reassigned :
  let s0 := static_init cpython_macros pycore_backoff_c (ProgramState ∅ tt) in
  globals s0 !! "_Py_ConfidenceLowerLimit" = Some 333
  ∧ (∃ s', assign pycore_backoff_c "_Py_ConfidenceLowerLimit" 0 s0 = Some s'
           ∧ globals s' !! "_Py_ConfidenceLowerLimit" = Some 0)
  ∧ ¬ never_changes cpython_macros pycore_backoff_c.
Proof.
  split; [by vm_compute|]. split.
  - eexists. split; [reflexivity | by vm_compute].
  - intros Hconst.
    specialize (Hconst (ProgramState ∅ tt) _ "_Py_ConfidenceLowerLimit" 0 _
                  eq_refl eq_refl).
    vm_compute in Hconst. discriminate Hconst.
Qed.

(** C4, amended: every global the file defines is an [int] object that is
    not [const]-qualified.  Static initialisation leaves each of them
    holding the value of its initialiser, and the file has no statement of
    its own that would change it afterwards; an assignment made elsewhere in
    the program is accepted and stores the assigned value. *)
Theorem pycore_backoff_initial_values (macros : string → Z) (R : Type)
    (s : program_state R) :
  Forall (fun d =>
            od_const d = false
            ∧ globals (static_init macros pycore_backoff_c s) !! od_name d
              = Some (initial_value macros (globals s) d)
            ∧ ∀ v, ∃ s',
                assign pycore_backoff_c (od_name d) v
                  (static_init macros pycore_backoff_c s) = Some s'
                ∧ globals s' !! od_name d = Some (to_int v))
         (objects pycore_backoff_c)
  ∧ statements pycore_backoff_c = [].
Proof.
  split; [|reflexivity].
  apply Forall_forall. intros d Hd. split; [|split].
  - revert d Hd. apply Forall_forall. exact pycore_backoff_not_const.
  - by apply pycore_backoff_initialised.
  - intros v. revert d Hd. apply Forall_forall.
    repeat constructor;
      (eexists; split; [reflexivity | simpl; apply lookup_insert_eq]).
Qed.

(** ** Macro initialisers *)

(** C5, as worded, fails on its naming rule: upper snake case of
    [AdaptiveCoolDownValue] is [ADAPTIVE_COOL_DOWN_VALUE], while the file
    initialises [_Py_AdaptiveCoolDownValue] from [ADAPTIVE_COOLDOWN_VALUE]. *)
Lemma pycore_backoff_cooldown_breaks_rule :
  spec_macro_name "_Py_AdaptiveCoolDownValue" = Some "ADAPTIVE_COOL_DOWN_VALUE"
  ∧ initialised_from pycore_backoff_c "_Py_AdaptiveCoolDownValue"
      "ADAPTIVE_COOLDOWN_VALUE"
  ∧ ¬ Forall follows_naming_rule (objects pycore_backoff_c).
Proof.
  split; [reflexivity|]. split; [eexists; split; reflexivity|].
  intros Hall.
  assert (Hd : int_global_object "_Py_AdaptiveCoolDownValue"
                 (Macro "ADAPTIVE_COOLDOWN_VALUE") ∈ objects pycore_backoff_c)
    by (apply (bool_decide_unpack _); vm_compute; exact I).
  rewrite Forall_forall in Hall. specialize (Hall _ Hd).
  vm_compute in Hall. discriminate Hall.
Qed.

(** C5, amended: each macro-derived global is initialised from exactly the
    macro listed for it and, the macro's value being representable as an
    [int], holds that value after static initialisation.  The macro's name
    is the upper-snake-case form of the global's name without [_Py_] for
    every global but [_Py_AdaptiveCoolDownValue], whose macro is
    [ADAPTIVE_COOLDOWN_VALUE]. *)
Theorem pycore_backoff_macro_values (macros : string → Z) (R : Type)
    (s : program_state R) :
  Forall (fun m => int_representable (macros m)) (macros_used pycore_backoff_c) →
  Forall (fun xm =>
            initialised_from pycore_backoff_c xm.1 xm.2
            ∧ globals (static_init macros pycore_backoff_c s) !! xm.1
              = Some (macros xm.2))
         macro_derived
  ∧ macros_used pycore_backoff_c = macro_derived.*2
  ∧ Forall (fun d => od_name d = "_Py_AdaptiveCoolDownValue"
                     ∨ follows_naming_rule d)
           (objects pycore_backoff_c).
Proof.
  intros Hfit. split; [|split; [reflexivity|]].
  - assert (Hval : ∀ x m,
               lookup_object pycore_backoff_c x
               = Some (int_global_object x (Macro m)) →
               m ∈ macros_used pycore_backoff_c →
               initialised_from pycore_backoff_c x m
               ∧ globals (static_init macros pycore_backoff_c s) !! x
                 = Some (macros m)).
    { intros x m Hx Hm. split; [by eexists|].
      rewrite (pycore_backoff_lookup_value macros R s x _ Hx).
      unfold initial_value; simpl. f_equal. apply to_int_representable.
      rewrite Forall_forall in Hfit. by apply Hfit. }
    repeat apply Forall_cons_2; try apply Forall_nil_2;
      (apply Hval; [reflexivity | apply (bool_decide_unpack _); by vm_compute]).
  - repeat apply Forall_cons_2; try apply Forall_nil_2;
      first [ right; reflexivity | left; reflexivity | right; exact I ].
Qed.

(** The same on CPython's macro values, which all fit in an [int], from an
    empty store. *)
Lemma pycore_backoff_macro_values_witness :
  Forall (fun m => int_representable (cpython_macros m))
         (macros_used pycore_backoff_c)
  ∧ (Forall (fun xm =>
               initialised_from pycore_backoff_c xm.1 xm.2
               ∧ globals (static_init cpython_macros pycore_backoff_c
                            (ProgramState ∅ tt)) !! xm.1
                 = Some (cpython_macros xm.2))
            macro_derived
     ∧ macros_used pycore_backoff_c = macro_derived.*2
     ∧ Forall (fun d => od_name d = "_Py_AdaptiveCoolDownValue"
                        ∨ follows_naming_rule d)
              (objects pycore_backoff_c)).
Proof.
  assert (Hfit : Forall (fun m => int_representable (cpython_macros m))
                        (macros_used pycore_backoff_c)).
  { repeat apply Forall_cons_2; try apply Forall_nil_2;
      (split; vm_compute; discriminate). }
  split; [exact Hfit|].
  exact (pycore_backoff_macro_values cpython_macros unit (ProgramState ∅ tt) Hfit).
Defined.

(** C6: [_Py_ConfidenceLowerLimit] is initialised to the integer literal 333
    and holds 333 after static initialisation whatever the macros are; it is
    the only object of the file with a literal initialiser, every other one
    being initialised from a macro. *)
Theorem pycore_backoff_confidence_literal :
  lookup_object pycore_backoff_c "_Py_ConfidenceLowerLimit"
  = Some (int_global_object "_Py_ConfidenceLowerLimit" (IntLit 333))
  ∧ Forall (fun d => (∃ z, od_init d = Some (IntLit z))
                     ↔ od_name d = "_Py_ConfidenceLowerLimit")
           (objects pycore_backoff_c)
  ∧ Forall (fun d => od_name d = "_Py_ConfidenceLowerLimit"
                     ∨ ∃ m, od_init d = Some (Macro m))
           (objects pycore_backoff_c)
  ∧ ∀ (macros : string → Z) (R : Type) (s : program_state R),
      globals (static_init macros pycore_backoff_c s)
        !! "_Py_ConfidenceLowerLimit" = Some 333.
Proof.
  split; [reflexivity|]. split; [|split].
  - repeat apply Forall_cons_2; try apply Forall_nil_2;
      (split; [intros [z Hz]; simpl in Hz; first [discriminate Hz | reflexivity]
              | intros Hn; simpl in Hn;
                first [discriminate Hn | by eexists]]).
  - repeat apply Forall_cons_2; try apply Forall_nil_2;
      first [ left; reflexivity | right; eexists; reflexivity ].
  - intros macros R s.
    by rewrite (pycore_backoff_lookup_value macros R s
                  "_Py_ConfidenceLowerLimit"
                  (int_global_object "_Py_ConfidenceLowerLimit" (IntLit 333))
                  eq_refl).
Qed.

(** ** Frame, linkage and determinism *)

(** Static initialisation of any unit touches only the objects it defines. *)
Lemma static_init_frame_any (macros : string → Z) (R : Type)
    (tu : translation_unit) (s : program_state R) (x : string) :
  x ∉ defined_names tu →
  globals (static_init macros tu s) !! x = globals s !! x.
Proof. intros Hx. by apply init_objects_other. Qed.

(** C7: initialising this translation unit modifies only the seven integer
    globals it defines.  Any other named object holds the value it held
    before, and the remainder of the program state is untouched. *)
Theorem pycore_backoff_init_frame (macros : string → Z) (R : Type)
    (s : program_state R) (x : string) :
  x ∉ defined_names pycore_backoff_c →
  globals (static_init macros pycore_backoff_c s) !! x = globals s !! x
  ∧ rest (static_init macros pycore_backoff_c s) = rest s
  ∧ List.length (defined_names pycore_backoff_c) = 7%nat.
Proof.
  intros Hx. split; [by apply static_init_frame_any|]. split; reflexivity.
Qed.

(** The frame on a store that holds one object the file does not define. *)
Lemma pycore_backoff_init_frame_witness :
  ("_Py_Unrelated" ∉ defined_names pycore_backoff_c)
  ∧ (globals (static_init cpython_macros pycore_backoff_c
                (ProgramState {[ "_Py_Unrelated" := 7 ]} [1; 2; 3]))
       !! "_Py_Unrelated"
     = globals (ProgramState {[ "_Py_Unrelated" := 7 ]} [1; 2; 3])
         !! "_Py_Unrelated"
     ∧ rest (static_init cpython_macros pycore_backoff_c
               (ProgramState {[ "_Py_Unrelated" := 7 ]} [1; 2; 3]))
       = rest (ProgramState {[ "_Py_Unrelated" := 7 ]} [1; 2; 3])
     ∧ List.length (defined_names pycore_backoff_c) = 7%nat).
Proof.
  assert (Hx : "_Py_Unrelated" ∉ defined_names pycore_backoff_c)
    by (apply (bool_decide_unpack _); vm_compute; exact I).
  split; [exact Hx|].
  exact (pycore_backoff_init_frame cpython_macros (list Z)
           (ProgramState {[ "_Py_Unrelated" := 7 ]} [1; 2; 3])
           "_Py_Unrelated" Hx).
Defined.

(** C8: every global the file defines is [extern]-visible.  None of the
    seven definitions is [static], each has external linkage, and resolving
    each name from another translation unit finds its definition. *)
Theorem pycore_backoff_external_linkage :
  Forall (fun d => od_storage d ≠ SC_static ∧ linkage_of d = External)
         (objects pycore_backoff_c)
  ∧ Forall (fun x => ∃ d, resolve_extern pycore_backoff_c x = Some d
                          ∧ od_name d = x)
           (defined_names pycore_backoff_c)
  ∧ List.length (objects pycore_backoff_c) = 7%nat.
Proof.
  split; [|split; [|reflexivity]].
  - repeat apply Forall_cons_2; try apply Forall_nil_2;
      (split; [discriminate | reflexivity]).
  - repeat apply Forall_cons_2; try apply Forall_nil_2;
      (eexists; split; reflexivity).
Qed.

(** C9: initialisation is deterministic and independent of input.  Every
    initialiser is a constant expression, so whatever two states two runs
    start from, each of the seven globals holds the same value after
    initialisation in both, namely the value of its initialiser. *)
Theorem pycore_backoff_init_deterministic (macros : string → Z) (R1 R2 : Type)
    (s1 : program_state R1) (s2 : program_state R2) :
  Forall (fun d =>
            constant_init d
            ∧ globals (static_init macros pycore_backoff_c s1) !! od_name d
              = globals (static_init macros pycore_backoff_c s2) !! od_name d
            ∧ globals (static_init macros pycore_backoff_c s1) !! od_name d
              = Some (initial_value macros ∅ d))
         (objects pycore_backoff_c)
  ∧ List.length (objects pycore_backoff_c) = 7%nat.
Proof.
  split; [|reflexivity].
  apply Forall_forall. intros d Hd.
  assert (Hc : constant_init d).
  { revert d Hd. apply Forall_forall. exact pycore_backoff_constant_inits. }
  split; [exact Hc|].
  rewrite !pycore_backoff_initialised by assumption.
  split; f_equal; by apply initial_value_constant.
Qed.

(** ** The store after initialisation, in closed form *)

Lemma initial_bindings_names (macros : string → Z)
    (ds : list object_definition) :
  (initial_bindings macros ds).*1 = od_name <$> ds.
Proof.
  unfold initial_bindings. rewrite <- list_fmap_compose. reflexivity.
Qed.

(** For definitions with distinct names and constant initialisers, running
    the initialisers in order is the same as laying the described store over
    the old one. *)
Lemma init_objects_union (macros : string → Z) (ds : list object_definition)
    (g : gmap string Z) :
  NoDup (od_name <$> ds) → Forall constant_init ds →
  foldl (init_object macros) g ds
  = list_to_map (initial_bindings macros ds) ∪ g.
Proof.
  revert g. induction ds as [|d ds IH]; intros g Hnd Hc; simpl.
  - by rewrite (left_id_L ∅ (∪)).
  - rewrite fmap_cons in Hnd. apply NoDup_cons in Hnd as [Hfresh Hnd].
    apply Forall_cons in Hc as [Hc0 Hc].
    rewrite IH by assumption. unfold init_object.
    rewrite (initial_value_constant macros g ∅ d Hc0).
    rewrite <- insert_union_r.
    + by rewrite insert_union_l.
    + apply not_elem_of_list_to_map_1. by rewrite initial_bindings_names.
Qed.

Lemma pycore_backoff_globals_union (macros : string → Z)
    (g : gmap string Z) :
  init_globals macros pycore_backoff_c g
  = initial_store macros pycore_backoff_c ∪ g.
Proof.
  apply init_objects_union;
    [exact pycore_backoff_names_nodup | exact pycore_backoff_constant_inits].
Qed.

(** X1: after static initialisation the store is the seven bindings of the
    file laid over whatever the store held before; the bindings depend on
    the macros only, not on the previous state. *)
Theorem pycore_backoff_init_closed_form (macros : string → Z) (R : Type)
    (s : program_state R) :
  globals (static_init macros pycore_backoff_c s)
  = initial_store macros pycore_backoff_c ∪ globals s
  ∧ dom (initial_store macros pycore_backoff_c)
    = list_to_set (C := gset string) (defined_names pycore_backoff_c).
Proof.
  split.
  - apply pycore_backoff_globals_union.
  - unfold initial_store. rewrite dom_list_to_map_L.
    by rewrite initial_bindings_names.
Qed.



(** ** Range of the stored values *)



(** ** One macro, one global *)

(** X4: the tunables are independent.  No macro initialises two globals,
    and a global initialised from a macro keeps its value under any change
    of the other macros. *)
Theorem pycore_backoff_macro_local (macros macros' : string → Z) (R : Type)
    (s : program_state R) (x m : string) :
  initialised_from pycore_backoff_c x m →
  macros m = macros' m →
  globals (static_init macros pycore_backoff_c s) !! x
  = globals (static_init macros' pycore_backoff_c s) !! x
  ∧ NoDup (macros_used pycore_backoff_c).
Proof.
  intros (d & Hd & Hinit) Hm. split.
  - rewrite (pycore_backoff_lookup_value macros R s x d Hd).
    rewrite (pycore_backoff_lookup_value macros' R s x d Hd).
    unfold initial_value. rewrite Hinit. simpl. by rewrite Hm.
  - apply (bool_decide_unpack _). by vm_compute.
Qed.

(** The chain depth is the same under CPython's macros and under an
    environment that differs from it at every other macro. *)
Lemma pycore_backoff_macro_local_witness :
  initialised_from pycore_backoff_c "_Py_MaxChainDepth" "MAX_CHAIN_DEPTH"
  ∧ cpython_macros "MAX_CHAIN_DEPTH" = (fun _ => 4) "MAX_CHAIN_DEPTH"
  ∧ (globals (static_init cpython_macros pycore_backoff_c (ProgramState ∅ tt))
       !! "_Py_MaxChainDepth"
     = globals (static_init (fun _ => 4) pycore_backoff_c (ProgramState ∅ tt))
         !! "_Py_MaxChainDepth"
     ∧ NoDup (macros_used pycore_backoff_c)).
Proof.
  assert (Hi : initialised_from pycore_backoff_c "_Py_MaxChainDepth"
                 "MAX_CHAIN_DEPTH")
    by (eexists; split; reflexivity).
  assert (Hm : cpython_macros "MAX_CHAIN_DEPTH" = (fun _ => 4) "MAX_CHAIN_DEPTH")
    by reflexivity.
  split; [exact Hi|]. split; [exact Hm|].
  exact (pycore_backoff_macro_local cpython_macros (fun _ => 4) unit
           (ProgramState ∅ tt) "_Py_MaxChainDepth" "MAX_CHAIN_DEPTH" Hi Hm).
Defined.

(** ** The symbols the unit exports *)

Lemma lookup_object_defined (tu : translation_unit) (x : string) :
  is_Some (lookup_object tu x) ↔ x ∈ defined_names tu.
Proof.
  unfold lookup_object, defined_names. split.
  - intros [d Hd]. apply find_some in Hd as [Hin Hn].
    apply bool_decide_eq_true in Hn. subst x.
    apply list_elem_of_fmap. exists d. split; [reflexivity|].
    by apply list_elem_of_In.
  - intros Hx. apply list_elem_of_fmap in Hx as (d & -> & Hd).
    destruct (find _ _) as [d'|] eqn:Hf; [by eexists|].
    apply list_elem_of_In in Hd.
    pose proof (find_none _ _ Hf d Hd) as Hn. simpl in Hn.
    by rewrite bool_decide_eq_true_2 in Hn.
Qed.

(** X5: the unit exports its seven globals and nothing else.  A name
    resolves against the unit exactly when it is one of the seven, every
    other name is left unresolved, and all seven carry the [_Py_] prefix. *)
Theorem pycore_backoff_exports (x : string) :
  (is_Some (resolve_extern pycore_backoff_c x)
   ↔ x ∈ defined_names pycore_backoff_c)
  ∧ (resolve_extern pycore_backoff_c x = None
     ↔ x ∉ defined_names pycore_backoff_c)
  ∧ Forall (fun y => is_Some (strip_prefix "_Py_" y))
           (defined_names pycore_backoff_c).
Proof.
  assert (Hres : is_Some (resolve_extern pycore_backoff_c x)
                 ↔ x ∈ defined_names pycore_backoff_c).
  { rewrite <- lookup_object_defined. unfold resolve_extern.
    destruct (lookup_object pycore_backoff_c x) as [d|] eqn:Hd;
      [|by split; intros [? ?]].
    apply lookup_object_elem in Hd as [Hin _].
    assert (Hl : linkage_of d = External).
    { revert d Hin. apply Forall_forall. repeat constructor. }
    rewrite Hl. by split; eexists. }
  split; [exact Hres|]. split.
  - rewrite <- Hres. rewrite eq_None_not_Some. reflexivity.
  - repeat apply Forall_cons_2; try apply Forall_nil_2; by eexists.
Qed.

(** A macro one past [INT_MAX] is stored as [INT_MIN]. *)
Example run_out_of_range :
  globals (static_init (fun _ => 2 ^ 31) pycore_backoff_c (ProgramState ∅ tt))
    !! "_Py_MaxChainDepth" = Some INT_MIN.
Proof. by vm_compute. Qed.
